(** * tracing.h: a shallow embedding of the leveled-logging header

    The header defines an ordered enumeration [Level], an immutable
    [Record], the [default_formatter], a [Builder] holding the minimum level
    and the formatter, one process-wide [g_builder], and five emission
    entry points [trace], [debug], [info], [warning], [error].

    Conventions of the embedding:
    - [std::string], [const char *] contents and the bytes written to a
      [std::ostream] are [string]s (lists of 8-bit characters);
    - [std::uint_least32_t] line and column numbers are [N];
    - a [std::string_view] is its characters together with the bytes that
      follow them in memory, which a C function given [data()] reads too;
    - the entry points run in a small monad that threads the process state
      (the global builder and the contents of [std::cout]) and records the
      operations they perform in a trace;
    - [std::format] is library code: the development is parametric in it. *)

From Stdlib Require Import Bool List NArith ZArith Ascii String Lia.
From Stdlib Require Import Numbers.DecimalString.
Import ListNotations.

Local Open Scope string_scope.

(** ** Level and its order *)

Module Level.

(** [enum class Level : uint32_t { Trace = 0, Debug, Info, Warning, Error }] *)
Inductive t : Set := Trace | Debug | Info | Warning | Error.

(** [static_cast<uint32_t>(l)] *)
Definition to_uint32 (l : t) : Z :=
  match l with
  | Trace => 0
  | Debug => 1
  | Info => 2
  | Warning => 3
  | Error => 4
  end%Z.

(** [operator<(Level lhs, Level rhs)] *)
Definition lt (lhs rhs : t) : bool :=
  (to_uint32 lhs <? to_uint32 rhs)%Z.

(** The built-in [lhs > rhs] of a scoped enumeration, used by the entry
    points: it compares the underlying values. *)
Definition gt (lhs rhs : t) : bool :=
  (to_uint32 lhs >? to_uint32 rhs)%Z.

(** "At least as severe as": the order Trace < Debug < Info < Warning < Error
    of the specification, read on the underlying values. *)
Definition ge (m l : t) : bool := negb (lt m l).

Definition eq_dec (a b : t) : {a = b} + {a <> b}.
Proof. decide equality. Defined.

Definition all : list t := [Trace; Debug; Info; Warning; Error].

End Level.

(** ** std::source_location and Record *)

(** The four observers of [std::source_location]. *)
Record source_location : Set := mk_source_location {
  file_name : string;
  function_name : string;
  line : N;
  column : N
}.

(** [class Record]: three private members, set once by the constructor. *)
Record Record_ : Set := mk_Record {
  Record_level : Level.t;
  Record_args : string;
  Record_loc : source_location
}.

(** [Record(Level level, std::string &&args, const std::source_location &loc)] *)
Definition Record_new (level : Level.t) (args : string) (loc : source_location)
  : Record_ :=
  {| Record_level := level; Record_args := args; Record_loc := loc |}.

Definition get_level (r : Record_) : Level.t := Record_level r.
Definition get_args (r : Record_) : string := Record_args r.
Definition get_loc (r : Record_) : source_location := Record_loc r.

(** ** Output streams *)

(** A [std::ostream] is modelled by the bytes written to it so far;
    [os << s] appends. *)
Definition ostream : Set := string.

Definition put_string (os : ostream) (s : string) : ostream := os ++ s.

(** [os << n] for an unsigned integer with the default flags: decimal,
    no padding, no sign. *)
Definition put_unsigned (os : ostream) (n : N) : ostream :=
  os ++ NilEmpty.string_of_uint (N.to_uint n).

(** [os << std::endl]: a newline; the flush is not observable here. *)
Definition put_endl (os : ostream) : ostream := os ++ String "010" "".

Declare Scope ostream_scope.
Delimit Scope ostream_scope with os.
Notation "os << s" := (put_string os s)
  (at level 55, left associativity) : ostream_scope.
Notation "os <<# n" := (put_unsigned os n)
  (at level 55, left associativity) : ostream_scope.

(** The escape character, written [\033] in the header. *)
Definition ESC : string := String "027" "".

(** ** default_formatter *)

(** Lines 63-87.  [ss] is the local [std::stringstream], started empty;
    its contents are written to [ofs] by the one insertion at the end. *)
Definition default_formatter (ofs : ostream) (record : Record_) : ostream :=
  let ss : ostream := "" in
  let ss := (ss << "[")%os in
  let ss :=
    match get_level record with
    | Level.Trace => ss << (ESC ++ "[37mTRACE" ++ ESC ++ "[0m")
    | Level.Debug => ss << (ESC ++ "[34mDEBUG" ++ ESC ++ "[0m")
    | Level.Info => ss << (ESC ++ "[32mINFO" ++ ESC ++ "[0m")
    | Level.Warning => ss << (ESC ++ "[33mWARNING" ++ ESC ++ "[0m")
    | Level.Error => ss << (ESC ++ "[31mERROR" ++ ESC ++ "[0m")
    end%os in
  let ss :=
    put_endl
      (ss << " " << file_name (get_loc record) << ":"
          <<# line (get_loc record) << ":" <<# column (get_loc record)
          << "] " << get_args record)%os in
  (ofs << ss)%os.

(** ** Builder *)

(** The type of the [formatter] member,
    [std::function<void(std::ostream &, Record &)>]: the stream is returned
    with what the callee wrote to it. *)
Definition formatter_t : Type := ostream -> Record_ -> ostream.

(** [class Builder]: the two private data members. *)
Record Builder : Type := mk_Builder {
  level : Level.t;
  formatter : formatter_t
}.

(** [Builder() : level(Level::Warning), formatter(default_formatter) {}] *)
Definition Builder_new : Builder :=
  {| level := Level.Warning; formatter := default_formatter |}.

Definition set_level (b : Builder) (l : Level.t) : Builder :=
  {| level := l; formatter := formatter b |}.

(** [std::tolower] on an [unsigned char] in the "C" locale, the locale of a
    program that never calls [setlocale]: the 26 upper-case letters move
    down by 32, every other value is returned as it is. *)
Definition tolower (c : ascii) : ascii :=
  let n := N_of_ascii c in
  if ((65 <=? n) && (n <=? 90))%N then ascii_of_N (n + 32) else c.

(** [std::transform(s.begin(), s.end(), s.begin(), f)] on a string. *)
Fixpoint transform (f : ascii -> ascii) (s : string) : string :=
  match s with
  | EmptyString => EmptyString
  | String c s' => String (f c) (transform f s')
  end.

(** The process environment as [std::getenv] sees it: [None] is the null
    pointer, [Some v] the characters of the value before its terminator. *)
Definition environment : Set := string -> option string.

(** The C string at an address where the bytes [s] are followed by a
    terminator: the characters before the first NUL. *)
Fixpoint c_str (s : string) : string :=
  match s with
  | EmptyString => EmptyString
  | String c s' => if (c =? "000")%char then EmptyString else String c (c_str s')
  end.

(** [std::string_view]: [size()] characters starting at [data()].  A view
    neither owns nor terminates its characters, so the model keeps with
    them the bytes that follow in the underlying array, up to the
    terminator of that array. *)
Record string_view : Set := mk_string_view {
  sv_chars : string;
  sv_after : string
}.

(** [name.data()]: the memory from the first character of the view on. *)
Definition data (name : string_view) : string := sv_chars name ++ sv_after name.

(** The constructor of [std::string_view] from a C string, the conversion
    a string literal argument goes through: the view ends where the C
    string ends. *)
Definition string_view_of (s : string) : string_view :=
  {| sv_chars := c_str s; sv_after := "" |}.

(** [Builder::from_env], lines 95-116.  [std::getenv] takes its argument
    as a C string, so line 98 looks up the characters from [name.data()]
    to the first NUL, wherever the view ends. *)
Definition from_env (getenv : environment) (name : string_view) : Builder :=
  let b := Builder_new in
  match getenv (c_str (data name)) with
  | Some cpp_log =>
      let log_level := transform tolower cpp_log in
      if log_level =? "trace" then set_level b Level.Trace
      else if log_level =? "debug" then set_level b Level.Debug
      else if log_level =? "info" then set_level b Level.Info
      else if log_level =? "warning" then set_level b Level.Warning
      else if log_level =? "error" then set_level b Level.Error
      else b
  | None => b
  end.

(** ** Process state and the monad of the entry points *)

(** The state the entry points read and write: the static member
    [Builder::g_builder] and the contents of [std::cout]. *)
Record World : Type := mk_World {
  g_builder : Builder;
  cout : ostream
}.

(** What an entry point does besides changing the state, in program
    order: a call of [std::format] (with the message it returned), the
    construction of a [Record], a call of the global formatter. *)
Inductive Event : Set :=
| EvFormat (message : string)
| EvRecord (record : Record_)
| EvFormatter (record : Record_).

(** A computation returns a value, the new state and the events it
    performed. *)
Definition M (A : Type) : Type := World -> A * World * list Event.

Definition ret {A : Type} (a : A) : M A := fun w => (a, w, []).

Definition bind {A B : Type} (m : M A) (k : A -> M B) : M B :=
  fun w =>
    let '(a, w1, e1) := m w in
    let '(b, w2, e2) := k a w1 in
    (b, w2, (e1 ++ e2)%list).

Declare Scope monad_scope.
Delimit Scope monad_scope with monad.
Notation "x <- c1 ;; c2" := (bind c1 (fun x => c2))
  (at level 61, c1 at next level, right associativity) : monad_scope.
Notation "c1 ;; c2" := (bind c1 (fun _ => c2))
  (at level 61, right associativity) : monad_scope.

Local Open Scope monad_scope.

(** Reading a member of [Builder::g_builder]. *)
Definition g_builder_level : M Level.t :=
  fun w => (level (g_builder w), w, []).

Definition g_builder_formatter : M formatter_t :=
  fun w => (formatter (g_builder w), w, []).

(** [Record record{level, std::move(message), loc};] *)
Definition construct_Record (l : Level.t) (message : string)
  (loc : source_location) : M Record_ :=
  fun w => let r := Record_new l message loc in (r, w, [EvRecord r]).

(** [f(std::cout, record);] *)
Definition call_formatter (f : formatter_t) (record : Record_) : M unit :=
  fun w =>
    (tt, {| g_builder := g_builder w; cout := f (cout w) record |},
     [EvFormatter record]).

(** [Builder::init], line 118: the receiver is move-assigned to
    [g_builder].  The builder is consumed: the receiver is left moved-from
    and is not used again. *)
Definition init (this : Builder) : M unit :=
  fun w => (tt, {| g_builder := this; cout := cout w |}, []).

(** [inline Builder Builder::g_builder = Builder{};] with an empty
    standard output: the state at program start. *)
Definition initial_World : World :=
  {| g_builder := Builder_new; cout := "" |}.

Section EntryPoints.

(** [std::format(fmt, args...)] for one instantiation [Args...] of the
    templates.  The format string was checked against [Args] at compile
    time ([std::format_string<Args...>]), so rendering returns a string. *)
Context {Args : Type} (std_format : string -> Args -> string).

Definition format (fmt : string) (args : Args) : M string :=
  fun w => let message := std_format fmt args in (message, w, [EvFormat message]).

(** [trace::trace], lines 146-156. *)
Definition trace (fmt : string) (args : Args) (loc : source_location) : M unit :=
  lvl <- g_builder_level ;;
  if Level.gt lvl Level.Debug then ret tt
  else
    message <- format fmt args ;;
    record <- construct_Record Level.Trace message loc ;;
    f <- g_builder_formatter ;;
    call_formatter f record.

(** [debug::debug], lines 163-173. *)
Definition debug (fmt : string) (args : Args) (loc : source_location) : M unit :=
  lvl <- g_builder_level ;;
  if Level.gt lvl Level.Debug then ret tt
  else
    message <- format fmt args ;;
    record <- construct_Record Level.Debug message loc ;;
    f <- g_builder_formatter ;;
    call_formatter f record.

(** [info::info], lines 180-190. *)
Definition info (fmt : string) (args : Args) (loc : source_location) : M unit :=
  lvl <- g_builder_level ;;
  if Level.gt lvl Level.Info then ret tt
  else
    message <- format fmt args ;;
    record <- construct_Record Level.Info message loc ;;
    f <- g_builder_formatter ;;
    call_formatter f record.

(** [warning::warning], lines 197-207. *)
Definition warning (fmt : string) (args : Args) (loc : source_location) : M unit :=
  lvl <- g_builder_level ;;
  if Level.gt lvl Level.Warning then ret tt
  else
    message <- format fmt args ;;
    record <- construct_Record Level.Warning message loc ;;
    f <- g_builder_formatter ;;
    call_formatter f record.

(** [error::error], lines 214-224. *)
Definition error (fmt : string) (args : Args) (loc : source_location) : M unit :=
  lvl <- g_builder_level ;;
  if Level.gt lvl Level.Error then ret tt
  else
    message <- format fmt args ;;
    record <- construct_Record Level.Error message loc ;;
    f <- g_builder_formatter ;;
    call_formatter f record.

(** The entry point that emits at severity [S]. *)
Definition entry_point (S : Level.t)
  : string -> Args -> source_location -> M unit :=
  match S with
  | Level.Trace => trace
  | Level.Debug => debug
  | Level.Info => info
  | Level.Warning => warning
  | Level.Error => error
  end.

End EntryPoints.

(** ** Observations on a run *)

Definition value_of {A : Type} (m : M A) (w : World) : A := fst (fst (m w)).
Definition world_after {A : Type} (m : M A) (w : World) : World := snd (fst (m w)).
Definition events_of {A : Type} (m : M A) (w : World) : list Event := snd (m w).

Definition is_formatter_call (e : Event) : bool :=
  match e with
  | EvFormatter _ => true
  | _ => false
  end.

(** The run called the global formatter: the message was emitted. *)
Definition invokes_formatter {A : Type} (m : M A) (w : World) : bool :=
  existsb is_formatter_call (events_of m w).

(** The run returned at its guard: nothing was rendered, constructed,
    called or written. *)
Definition suppressed (m : M unit) (w : World) : Prop :=
  m w = (tt, w, []).

(** The enumerator an entry point compares the configured level with in
    its guard (lines 148, 165, 182, 199 and 216). *)
Definition guard_level (S : Level.t) : Level.t :=
  match S with
  | Level.Trace => Level.Debug
  | Level.Debug => Level.Debug
  | Level.Info => Level.Info
  | Level.Warning => Level.Warning
  | Level.Error => Level.Error
  end.

(** The outcome of a run that passes its guard and emits [message] at
    severity [S] from [loc]: rendered, constructed, handed to the global
    formatter, whose writes go to [std::cout]. *)
Definition emission (w : World) (S : Level.t) (message : string)
  (loc : source_location) : unit * World * list Event :=
  let r := Record_new S message loc in
  (tt,
   {| g_builder := g_builder w; cout := formatter (g_builder w) (cout w) r |},
   [EvFormat message; EvRecord r; EvFormatter r]).

(** The environment of a run with CPP_LOG=debug, and the state after a
    program in it has executed [Builder::from_env("CPP_LOG").init()]. *)
Definition debug_environment : environment :=
  fun name => if name =? "CPP_LOG" then Some "debug" else None.

Definition World_at_Debug : World :=
  world_after (init (from_env debug_environment (string_view_of "CPP_LOG")))
    initial_World.

(** The view of the first seven characters of the array "CPP_LOGX", as
    [std::string_view("CPP_LOGX", 7)] or [sv.substr(0, 7)] make it, and an
    environment in which CPP_LOGX=error is the only variable. *)
Definition CPP_LOG_in_CPP_LOGX : string_view :=
  {| sv_chars := "CPP_LOG"; sv_after := "X" |}.

Definition CPP_LOGX_environment : environment :=
  fun name => if name =? "CPP_LOGX" then Some "error" else None.

(** A view that ends where the C string at its [data()] ends. *)
Definition terminated (name : string_view) : Prop :=
  c_str (data name) = sv_chars name.

(** ** The wording of the specification *)

(** The line format of the default formatter names its pieces. *)
Definition ANSI_COLOR (l : Level.t) : string :=
  match l with
  | Level.Trace => ESC ++ "[37m"
  | Level.Debug => ESC ++ "[34m"
  | Level.Info => ESC ++ "[32m"
  | Level.Warning => ESC ++ "[33m"
  | Level.Error => ESC ++ "[31m"
  end.

Definition ANSI_RESET : string := ESC ++ "[0m".

(** Display form of a level name. *)
Definition LEVEL_NAME (l : Level.t) : string :=
  match l with
  | Level.Trace => "TRACE"
  | Level.Debug => "DEBUG"
  | Level.Info => "INFO"
  | Level.Warning => "WARNING"
  | Level.Error => "ERROR"
  end.

(** Parse form of a level name. *)
Definition level_literal (l : Level.t) : string :=
  match l with
  | Level.Trace => "trace"
  | Level.Debug => "debug"
  | Level.Info => "info"
  | Level.Warning => "warning"
  | Level.Error => "error"
  end.

Definition decimal (n : N) : string := NilEmpty.string_of_uint (N.to_uint n).

(** ["[" + ANSI_COLOR + LEVEL_NAME + ANSI_RESET + " " + FILE + ":" + LINE +
    ":" + COLUMN + "] " + MESSAGE + "\n"] *)
Definition line_format (l : Level.t) (loc : source_location) (message : string)
  : string :=
  "[" ++ ANSI_COLOR l ++ LEVEL_NAME l ++ ANSI_RESET ++ " " ++ file_name loc
      ++ ":" ++ decimal (line loc) ++ ":" ++ decimal (column loc) ++ "] "
      ++ message ++ String "010" "".

(** A lower-case letter [a]..[z]. *)
Definition is_lower (c : ascii) : bool :=
  ((97 <=? N_of_ascii c) && (N_of_ascii c <=? 122))%N.

(** The upper-case form of a lower-case letter. *)
Definition upper_of (c : ascii) : ascii := ascii_of_N (N_of_ascii c - 32).

(** [c] is the letter [n] in one of its two casings. *)
Definition same_letter (n c : ascii) : bool :=
  ((c =? n) || (c =? upper_of n))%char.

(** [s] is the literal [name] in some letter-casing: the same letters in
    the same order, each one in lower or upper case. *)
Fixpoint letter_casing_of (name s : string) : bool :=
  match name, s with
  | EmptyString, EmptyString => true
  | String n name', String c s' => same_letter n c && letter_casing_of name' s'
  | _, _ => false
  end.

Fixpoint all_lower (s : string) : bool :=
  match s with
  | EmptyString => true
  | String c s' => is_lower c && all_lower s'
  end.

(** ** Client programs *)

(** One call of an entry point: the instantiation of the template (the
    argument pack and how [std::format] renders it), the format string,
    the arguments and the call site. *)
Record call : Type := mk_call {
  call_severity : Level.t;
  call_Args : Type;
  call_format : string -> call_Args -> string;
  call_fmt : string;
  call_args : call_Args;
  call_loc : source_location
}.

Definition call_message (c : call) : string :=
  call_format c (call_fmt c) (call_args c).

Definition run_call (c : call) : M unit :=
  entry_point (call_format c) (call_severity c) (call_fmt c) (call_args c)
    (call_loc c).

(** What client code can do with the header.  The two-argument constructor
    and the data members are private, so a builder comes from [Builder()]
    or from [from_env], and [init] consumes it. *)
Inductive statement : Type :=
| Init_default
| Init_from_env (getenv : environment) (name : string_view)
| Emit (c : call).

Definition run_statement (s : statement) : M unit :=
  match s with
  | Init_default => init Builder_new
  | Init_from_env getenv name => init (from_env getenv name)
  | Emit c => run_call c
  end.

Fixpoint run_program (p : list statement) : M unit :=
  match p with
  | [] => ret tt
  | s :: p' => run_statement s ;; run_program p'
  end.

(** The level in force after a program that started at level [L]. *)
Fixpoint final_level (L : Level.t) (p : list statement) : Level.t :=
  match p with
  | [] => L
  | Init_default :: p' => final_level Level.Warning p'
  | Init_from_env getenv name :: p' =>
      final_level (level (from_env getenv name)) p'
  | Emit _ :: p' => final_level L p'
  end.

(** The lines a program that started at level [L] is expected to print:
    one per call that passes its guard, in call order. *)
Fixpoint expected_output (L : Level.t) (p : list statement) : string :=
  match p with
  | [] => ""
  | Init_default :: p' => expected_output Level.Warning p'
  | Init_from_env getenv name :: p' =>
      expected_output (level (from_env getenv name)) p'
  | Emit c :: p' =>
      (if Level.gt L (guard_level (call_severity c)) then ""
       else line_format (call_severity c) (call_loc c) (call_message c))
      ++ expected_output L p'
  end.

(** [main] of example.cc (lines 263-269 of the listing).  The two calls
    instantiate the templates at a C string and at an [int]; the call sites
    are what [std::source_location::current()] gave the compiler. *)
Definition main (getenv : environment)
  (format_str : string -> string -> string)
  (format_int : string -> Z -> string)
  (loc_info loc_debug : source_location) : M Z :=
  let builder := from_env getenv (string_view_of "CPP_LOG") in
  init builder ;;
  info format_str "Hello, {}!" "world" loc_info ;;
  debug format_int "1 + 1 = {}" (1 + 1)%Z loc_debug ;;
  ret 0%Z.

(** Occurrences of a character in a string. *)
Fixpoint count_char (c : ascii) (s : string) : nat :=
  match s with
  | EmptyString => 0
  | String x s' => (if (x =? c)%char then 1 else 0) + count_char c s'
  end.

Definition newline : ascii := "010"%char.

(** The environment with every value lower-cased beforehand. *)
Definition lowered (getenv : environment) : environment :=
  fun name => option_map (transform tolower) (getenv name).

(** ** Facts about Level *)

Module LevelFacts.
Import Level.

Lemma all_complete (l : t) : In l all.
Proof. destruct l; simpl; tauto. Qed.

Lemma to_uint32_range (l : t) : (0 <= to_uint32 l < 2 ^ 32)%Z.
Proof. destruct l; simpl; lia. Qed.

Lemma to_uint32_inj (a b : t) : to_uint32 a = to_uint32 b -> a = b.
Proof. destruct a, b; simpl; intros H; try reflexivity; discriminate H. Qed.

Lemma gt_lt (a b : t) : gt a b = lt b a.
Proof. unfold gt, lt. apply Z.gtb_ltb. Qed.

Lemma lt_irrefl (a : t) : lt a a = false.
Proof. unfold lt. apply Z.ltb_irrefl. Qed.

Lemma lt_trans (a b c : t) : lt a b = true -> lt b c = true -> lt a c = true.
Proof. unfold lt. rewrite !Z.ltb_lt. lia. Qed.

Lemma lt_total (a b : t) : lt a b = true \/ a = b \/ lt b a = true.
Proof.
  unfold lt. rewrite !Z.ltb_lt.
  destruct (Z.lt_total (to_uint32 a) (to_uint32 b)) as [H | [H | H]]; auto.
  right; left. now apply to_uint32_inj.
Qed.

Lemma ge_refl (a : t) : ge a a = true.
Proof. unfold ge. now rewrite lt_irrefl. Qed.

Lemma ge_iff (m l : t) : ge m l = true <-> (to_uint32 l <= to_uint32 m)%Z.
Proof. unfold ge, lt. rewrite negb_true_iff, Z.ltb_ge. reflexivity. Qed.

End LevelFacts.

(** ** Facts about strings and streams *)

Lemma append_assoc (a b c : string) : (a ++ b) ++ c = a ++ (b ++ c).
Proof. induction a as [| x a IH]; simpl; [reflexivity | now rewrite IH]. Qed.

Lemma append_nil_l (a : string) : "" ++ a = a.
Proof. reflexivity. Qed.

Lemma decimal_examples :
  decimal 0 = "0" /\ decimal 7 = "7" /\ decimal 38 = "38" /\
  decimal 4294967295 = "4294967295".
Proof. repeat split. Qed.

(** The stream insertions of [default_formatter], flattened. *)
Lemma default_formatter_unfold (ofs : ostream) (r : Record_) :
  default_formatter ofs r =
  ofs ++ "[" ++ ANSI_COLOR (get_level r) ++ LEVEL_NAME (get_level r)
      ++ ANSI_RESET ++ " " ++ file_name (get_loc r) ++ ":"
      ++ decimal (line (get_loc r)) ++ ":" ++ decimal (column (get_loc r))
      ++ "] " ++ get_args r ++ String "010" "".
Proof.
  unfold default_formatter, put_endl, put_unsigned, put_string, decimal.
  f_equal.
  destruct (get_level r); cbn [ANSI_COLOR LEVEL_NAME];
    rewrite ?append_assoc; reflexivity.
Qed.

(** ** Record *)

(** C8.  The constructor of [Record] is total: it takes any level, any
    message (the empty one too) and any location, checks nothing, and the
    three accessors give back exactly what it was given. *)
Theorem Record_accessors_return_constructor_arguments :
  forall (l : Level.t) (message : string) (loc : source_location),
    get_level (Record_new l message loc) = l /\
    get_args (Record_new l message loc) = message /\
    get_loc (Record_new l message loc) = loc /\
    get_args (Record_new l "" loc) = "".
Proof. intros l message loc. repeat split. Qed.

(** ** default_formatter *)

(** C4.  On every stream and record, [default_formatter] appends one line
    of the shape "[" COLOR NAME RESET " " FILE ":" LINE ":" COLUMN "] "
    MESSAGE newline, with the five colours 37, 34, 32, 33, 31 for Trace,
    Debug, Info, Warning, Error; for level Info, location foo.ext 3 7 and
    message bar the stream receives exactly
    ESC[32mINFO ESC[0m, a space, foo.ext:3:7], a space, bar and a newline. *)
Theorem default_formatter_line_format :
  (forall (ofs : ostream) (l : Level.t) (message : string)
          (loc : source_location),
      default_formatter ofs (Record_new l message loc)
      = ofs ++ line_format l loc message) /\
  (forall fn : string,
      default_formatter ""
        (Record_new Level.Info "bar" (mk_source_location "foo.ext" fn 3 7))
      = String "[" (String "027" "[32mINFO"
          ++ String "027" "[0m foo.ext:3:7] bar" ++ String "010" "")) /\
  map ANSI_COLOR Level.all
  = [String "027" "[37m"; String "027" "[34m"; String "027" "[32m";
     String "027" "[33m"; String "027" "[31m"] /\
  ANSI_RESET = String "027" "[0m".
Proof.
  split; [| split; [| split]]; try reflexivity.
  intros ofs l message loc.
  rewrite default_formatter_unfold. reflexivity.
Qed.

(** ** tolower and letter casings *)

Lemma N_of_ascii_tolower (c : ascii) :
  N_of_ascii (tolower c)
  = if ((65 <=? N_of_ascii c) && (N_of_ascii c <=? 90))%N
    then (N_of_ascii c + 32)%N else N_of_ascii c.
Proof.
  unfold tolower.
  destruct ((65 <=? N_of_ascii c) && (N_of_ascii c <=? 90))%N eqn:E;
    [| reflexivity].
  apply andb_true_iff in E. destruct E as [_ E2].
  apply N.leb_le in E2.
  apply N_ascii_embedding. lia.
Qed.

Lemma ascii_eqb_N (a b : ascii) :
  (a =? b)%char = (N_of_ascii a =? N_of_ascii b)%N.
Proof.
  destruct (Ascii.eqb_spec a b) as [-> | Hne].
  - symmetry. apply N.eqb_refl.
  - symmetry. apply N.eqb_neq. intros H. apply Hne.
    rewrite <- (ascii_N_embedding a), <- (ascii_N_embedding b).
    now rewrite H.
Qed.

(** Lower-casing a character gives the lower-case letter [n] exactly when
    the character is [n] or its upper-case form. *)
Lemma tolower_same_letter (n c : ascii) :
  is_lower n = true -> (tolower c =? n)%char = same_letter n c.
Proof.
  unfold is_lower, same_letter, upper_of. intros Hn.
  apply andb_true_iff in Hn. destruct Hn as [H1 H2].
  apply N.leb_le in H1, H2.
  rewrite !ascii_eqb_N, N_of_ascii_tolower.
  rewrite (N_ascii_embedding (N_of_ascii n - 32)) by lia.
  pose proof (N_ascii_bounded c) as Hc.
  destruct (N.leb_spec 65 (N_of_ascii c)), (N.leb_spec (N_of_ascii c) 90);
    cbn [andb];
    destruct (N.eqb_spec (N_of_ascii c) (N_of_ascii n));
    destruct (N.eqb_spec (N_of_ascii c) (N_of_ascii n - 32));
    cbn [orb];
    try reflexivity;
    try (apply N.eqb_eq; lia); try (apply N.eqb_neq; lia);
    exfalso; lia.
Qed.

(** The comparison of [from_env] against a lower-case literal accepts
    exactly the letter casings of that literal. *)
Lemma transform_tolower_eqb (name s : string) :
  all_lower name = true ->
  (transform tolower s =? name) = letter_casing_of name s.
Proof.
  revert s. induction name as [| n name IH]; intros [| c s] Hl; try reflexivity.
  cbn [all_lower] in Hl. apply andb_true_iff in Hl. destruct Hl as [Hn Hl].
  cbn [transform letter_casing_of String.eqb].
  rewrite <- (tolower_same_letter n c Hn), <- (IH s Hl).
  destruct (tolower c =? n)%char; reflexivity.
Qed.

Lemma level_literal_lower (l : Level.t) : all_lower (level_literal l) = true.
Proof. destruct l; reflexivity. Qed.

Lemma tolower_examples :
  transform tolower "WaRnInG" = "warning" /\
  transform tolower "Info-2 [X]" = "info-2 [x]" /\
  letter_casing_of "warning" "WaRnInG" = true /\
  letter_casing_of "warning" "warnin" = false /\
  letter_casing_of "info" "1NFO" = false.
Proof. repeat split. Qed.

(** ** Builder::from_env *)

Lemma letter_casing_lowered (l : Level.t) (value : string) :
  letter_casing_of (level_literal l) value = true <->
  transform tolower value = level_literal l.
Proof.
  rewrite <- (transform_tolower_eqb _ _ (level_literal_lower l)).
  apply String.eqb_eq.
Qed.

(** C5.  When the variable the function reads is set, a value that is one
    of the five literals trace, debug, info, warning, error in any
    letter-casing gives a builder with the matching level; any other value
    gives the builder the function started from, whose level is Warning.
    [from_env] is a total function: no value makes it fail. *)
Theorem from_env_parses_level_name :
  forall (getenv : environment) (name : string_view) (value : string),
    getenv (c_str (data name)) = Some value ->
    (forall l : Level.t,
        letter_casing_of (level_literal l) value = true ->
        level (from_env getenv name) = l) /\
    ((forall l : Level.t, letter_casing_of (level_literal l) value = false) ->
     from_env getenv name = Builder_new /\
     level (from_env getenv name) = Level.Warning).
Proof.
  intros getenv name value Hset. unfold from_env. rewrite Hset. split.
  - intros l Hl. apply letter_casing_lowered in Hl. rewrite Hl.
    destruct l; reflexivity.
  - intros Hnone.
    assert (Hne : forall l, (transform tolower value =? level_literal l) = false).
    { intros l. rewrite (transform_tolower_eqb _ _ (level_literal_lower l)).
      apply Hnone. }
    pose proof (Hne Level.Trace) as H0. pose proof (Hne Level.Debug) as H1.
    pose proof (Hne Level.Info) as H2. pose proof (Hne Level.Warning) as H3.
    pose proof (Hne Level.Error) as H4.
    cbn [level_literal] in H0, H1, H2, H3, H4.
    rewrite H0, H1, H2, H3, H4. split; reflexivity.
Qed.

Lemma from_env_parses_level_name_witness :
  level (from_env (fun name => if name =? "CPP_LOG" then Some "DeBuG" else None)
           (string_view_of "CPP_LOG")) = Level.Debug /\
  level (from_env (fun name => if name =? "CPP_LOGX" then Some "verbose" else None)
           CPP_LOG_in_CPP_LOGX) = Level.Warning.
Proof.
  split.
  - apply (proj1 (from_env_parses_level_name
                    (fun name => if name =? "CPP_LOG" then Some "DeBuG" else None)
                    (string_view_of "CPP_LOG") "DeBuG" eq_refl)).
    reflexivity.
  - apply (proj2 (from_env_parses_level_name
                    (fun name => if name =? "CPP_LOGX" then Some "verbose" else None)
                    CPP_LOG_in_CPP_LOGX "verbose" eq_refl)).
    intros l. destruct l; reflexivity.
Defined.

(** An unset variable at the name the function reads leaves the default
    builder. *)
Lemma from_env_unset (getenv : environment) (name : string_view) :
  getenv (c_str (data name)) = None -> from_env getenv name = Builder_new.
Proof. intros Hunset. unfold from_env. now rewrite Hunset. Qed.

Lemma c_str_idempotent (s : string) : c_str (c_str s ++ "") = c_str s.
Proof.
  induction s as [| c s IH]; cbn [c_str]; [reflexivity |].
  destruct (c =? "000")%char eqn:E; [reflexivity |].
  cbn [append c_str]. now rewrite E, IH.
Qed.

(** A view made from a C string, a string literal for one, ends at the
    terminator. *)
Lemma string_view_of_terminated (s : string) : terminated (string_view_of s).
Proof. unfold terminated, data, string_view_of. apply c_str_idempotent. Qed.

(** C6, at the view of the first seven characters of "CPP_LOGX" with
    CPP_LOG unset and CPP_LOGX=error.  The variable named by the view is
    unset, and [from_env] returns level Error instead of the default
    builder: [std::getenv] is given [name.data()] and reads the name up to
    the terminator of the array, past the end of the view.  For a view that
    ends at the terminator the unset variable gives the default builder,
    level Warning and [default_formatter]. *)
Theorem from_env_reads_past_string_view :
  sv_chars CPP_LOG_in_CPP_LOGX = "CPP_LOG" /\
  CPP_LOGX_environment (sv_chars CPP_LOG_in_CPP_LOGX) = None /\
  c_str (data CPP_LOG_in_CPP_LOGX) = "CPP_LOGX" /\
  level (from_env CPP_LOGX_environment CPP_LOG_in_CPP_LOGX) = Level.Error /\
  from_env CPP_LOGX_environment CPP_LOG_in_CPP_LOGX <> Builder_new /\
  (forall (getenv : environment) (name : string_view),
      terminated name ->
      getenv (sv_chars name) = None ->
      from_env getenv name = Builder_new /\
      level (from_env getenv name) = Level.Warning /\
      formatter (from_env getenv name) = default_formatter).
Proof.
  repeat (split; [reflexivity |]).
  split.
  - intros H. apply (f_equal level) in H. discriminate H.
  - intros getenv name Hterm Hunset.
    rewrite from_env_unset by (rewrite Hterm; exact Hunset).
    repeat split.
Qed.

(** C10.  Whatever the environment holds, the builder returned by
    [from_env] has the formatter of the default constructor, which is
    [default_formatter]: it differs from the default builder in its level
    at most. *)
Theorem from_env_keeps_default_formatter :
  forall (getenv : environment) (name : string_view),
    formatter (from_env getenv name) = default_formatter /\
    formatter (from_env getenv name) = formatter Builder_new /\
    from_env getenv name = set_level Builder_new (level (from_env getenv name)).
Proof.
  intros getenv name. unfold from_env.
  destruct (getenv (c_str (data name))) as [value |]; [| repeat split].
  repeat match goal with
         | |- context [if ?b then _ else _] => destruct b
         end; repeat split.
Qed.

(** ** The emission entry points *)

Section EntryPointFacts.

Context {Args : Type} (std_format : string -> Args -> string).

(** Every entry point is its guard followed by the same emission. *)
Lemma entry_point_run (S : Level.t) (fmt : string) (args : Args)
  (loc : source_location) (w : World) :
  entry_point std_format S fmt args loc w
  = if Level.gt (level (g_builder w)) (guard_level S)
    then (tt, w, [])
    else emission w S (std_format fmt args) loc.
Proof.
  destruct w as [[L f] c].
  destruct S; cbn [entry_point guard_level];
    unfold trace, debug, info, warning, error, bind, g_builder_level;
    cbn [g_builder level];
    destruct (Level.gt L _); reflexivity.
Qed.

Lemma entry_point_invokes_formatter (S : Level.t) (fmt : string) (args : Args)
  (loc : source_location) (w : World) :
  invokes_formatter (entry_point std_format S fmt args loc) w
  = negb (Level.gt (level (g_builder w)) (guard_level S)).
Proof.
  unfold invokes_formatter, events_of. rewrite entry_point_run.
  destruct (Level.gt _ _); reflexivity.
Qed.

(** The four entry points above trace filter by their own severity. *)
Lemma entry_point_filter_above_trace (S : Level.t) (fmt : string)
  (args : Args) (loc : source_location) (w : World) :
  S <> Level.Trace ->
  invokes_formatter (entry_point std_format S fmt args loc) w
  = Level.ge S (level (g_builder w)).
Proof.
  intros HS. rewrite entry_point_invokes_formatter.
  unfold Level.ge. rewrite LevelFacts.gt_lt.
  destruct S; try reflexivity. now elim HS.
Qed.

Lemma entry_point_suppressed_above_trace (S : Level.t) (fmt : string)
  (args : Args) (loc : source_location) (w : World) :
  S <> Level.Trace ->
  Level.lt S (level (g_builder w)) = true ->
  suppressed (entry_point std_format S fmt args loc) w.
Proof.
  intros HS Hlt. unfold suppressed. rewrite entry_point_run.
  rewrite LevelFacts.gt_lt.
  destruct S; cbn [guard_level]; try (now rewrite Hlt). now elim HS.
Qed.

(** The trace entry point filters by the severity of debug. *)
Lemma trace_filter (fmt : string) (args : Args) (loc : source_location)
  (w : World) :
  invokes_formatter (trace std_format fmt args loc) w
  = Level.ge Level.Debug (level (g_builder w)).
Proof.
  change (trace std_format) with (entry_point std_format Level.Trace).
  rewrite entry_point_invokes_formatter.
  unfold Level.ge. now rewrite LevelFacts.gt_lt.
Qed.

(** No entry point writes [g_builder]. *)
Lemma entry_point_keeps_g_builder (S : Level.t) (fmt : string) (args : Args)
  (loc : source_location) (w : World) :
  g_builder (world_after (entry_point std_format S fmt args loc) w)
  = g_builder w.
Proof.
  unfold world_after. rewrite entry_point_run.
  destruct (Level.gt _ _); reflexivity.
Qed.

(** C3.  Whatever level is configured, the entry point of exactly that
    severity passes its guard: the message is rendered, the record is
    constructed and the configured formatter is called with it. *)
Theorem entry_point_at_configured_level_emits :
  forall (fmt : string) (args : Args) (loc : source_location) (w : World),
    let L := level (g_builder w) in
    entry_point std_format L fmt args loc w
    = emission w L (std_format fmt args) loc /\
    invokes_formatter (entry_point std_format L fmt args loc) w = true.
Proof.
  intros fmt args loc w L.
  rewrite entry_point_invokes_formatter, entry_point_run.
  subst L. destruct (level (g_builder w)); split; reflexivity.
Qed.

(** C9.  Under every configuration a trace emission is suppressed exactly
    when a debug emission is: both guards compare the configured level
    with Debug. *)
Theorem trace_suppressed_iff_debug_suppressed :
  forall (fmt : string) (args : Args) (loc : source_location) (w : World),
    (suppressed (trace std_format fmt args loc) w <->
     suppressed (debug std_format fmt args loc) w) /\
    invokes_formatter (trace std_format fmt args loc) w
    = invokes_formatter (debug std_format fmt args loc) w /\
    (suppressed (trace std_format fmt args loc) w <->
     Level.gt (level (g_builder w)) Level.Debug = true).
Proof.
  intros fmt args loc w.
  change (trace std_format) with (entry_point std_format Level.Trace).
  change (debug std_format) with (entry_point std_format Level.Debug).
  unfold suppressed.
  rewrite !entry_point_invokes_formatter, !entry_point_run.
  cbn [guard_level].
  destruct (Level.gt (level (g_builder w)) Level.Debug);
    repeat split; intros H; try reflexivity; discriminate H.
Qed.

End EntryPointFacts.

(** ** The process-wide builder *)

Section GlobalBuilder.

Context {Args : Type} (std_format : string -> Args -> string).

Lemma init_run (self : Builder) (w : World) :
  init self w = (tt, {| g_builder := self; cout := cout w |}, []).
Proof. reflexivity. Qed.

(** C7.  At program start the global builder has level Warning and the
    default formatter, and no emission changes it; [init] makes the global
    builder equal to its receiver, level and formatter both, and leaves the
    output alone.  A debug emission in the start state is suppressed; the
    same emission after the [init] of a builder whose level is Debug calls
    that builder's formatter with the record. *)
Theorem init_replaces_global_builder :
  forall (fmt : string) (args : Args) (loc : source_location),
    (level (g_builder initial_World) = Level.Warning /\
     formatter (g_builder initial_World) = default_formatter) /\
    (forall (S : Level.t) (w : World),
        g_builder (world_after (entry_point std_format S fmt args loc) w)
        = g_builder w) /\
    (forall (self : Builder) (w : World),
        g_builder (world_after (init self) w) = self /\
        cout (world_after (init self) w) = cout w /\
        events_of (init self) w = []) /\
    suppressed (debug std_format fmt args loc) initial_World /\
    (forall (f : formatter_t) (w : World),
        let self := {| level := Level.Debug; formatter := f |} in
        let r := Record_new Level.Debug (std_format fmt args) loc in
        (init self ;; debug std_format fmt args loc) w
        = (tt, {| g_builder := self; cout := f (cout w) r |},
           [EvFormat (std_format fmt args); EvRecord r; EvFormatter r]) /\
        invokes_formatter (init self ;; debug std_format fmt args loc) w
        = true).
Proof.
  intros fmt args loc.
  split; [split; reflexivity |].
  split; [intros S w; apply entry_point_keeps_g_builder |].
  split; [intros self w; repeat split |].
  split; [reflexivity |].
  intros f w self r. split; reflexivity.
Qed.

End GlobalBuilder.

(** ** The guard of trace *)

Section TraceGuard.

Context {Args : Type} (std_format : string -> Args -> string).

Lemma World_at_Debug_level : level (g_builder World_at_Debug) = Level.Debug.
Proof. reflexivity. Qed.

(** C1, at the configured level Debug and the message severity Trace.
    Trace is below Debug in the order, and the trace entry point calls the
    formatter all the same.  In general an entry point calls the formatter
    exactly when the level of its guard is at least the configured level,
    and the guard of trace names Debug. *)
Theorem trace_emits_at_level_Debug :
  forall (fmt : string) (args : Args) (loc : source_location),
    Level.ge Level.Trace (level (g_builder World_at_Debug)) = false /\
    invokes_formatter (entry_point std_format Level.Trace fmt args loc)
      World_at_Debug = true /\
    (forall (S : Level.t) (w : World),
        invokes_formatter (entry_point std_format S fmt args loc) w
        = Level.ge (guard_level S) (level (g_builder w))).
Proof.
  intros fmt args loc.
  split; [reflexivity |]. split; [reflexivity |].
  intros S w. rewrite entry_point_invokes_formatter.
  unfold Level.ge. now rewrite LevelFacts.gt_lt.
Qed.

(** On every pair of levels but (Trace, Debug) the filter is the order. *)
Lemma entry_point_filter_except_trace_at_Debug (S : Level.t) (fmt : string)
  (args : Args) (loc : source_location) (w : World) :
  (S, level (g_builder w)) <> (Level.Trace, Level.Debug) ->
  invokes_formatter (entry_point std_format S fmt args loc) w
  = Level.ge S (level (g_builder w)).
Proof.
  intros Hpair. rewrite entry_point_invokes_formatter.
  unfold Level.ge. rewrite LevelFacts.gt_lt.
  destruct S; try reflexivity.
  destruct (level (g_builder w)); try reflexivity. now elim Hpair.
Qed.

(** So the filter of the five entry points is not the order on levels. *)
Lemma filter_is_not_the_order (fmt : string) (args : Args)
  (loc : source_location) :
  ~ (forall (S : Level.t) (w : World),
        invokes_formatter (entry_point std_format S fmt args loc) w
        = Level.ge S (level (g_builder w))).
Proof.
  intros H. specialize (H Level.Trace World_at_Debug). discriminate H.
Qed.

(** C2, at the configured level Debug and the trace entry point.  The
    severity is strictly below the configured level, and the call does not
    return at its guard: the template is rendered, a record is constructed,
    the formatter is called and a TRACE line reaches the output. *)
Theorem trace_not_suppressed_at_level_Debug :
  forall (fmt : string) (args : Args) (fn : string),
    let loc := mk_source_location "example.cc" fn 8 17 in
    let message := std_format fmt args in
    let r := Record_new Level.Trace message loc in
    Level.lt Level.Trace (level (g_builder World_at_Debug)) = true /\
    trace std_format fmt args loc World_at_Debug
    = emission World_at_Debug Level.Trace message loc /\
    events_of (trace std_format fmt args loc) World_at_Debug
    = [EvFormat message; EvRecord r; EvFormatter r] /\
    cout (world_after (trace std_format fmt args loc) World_at_Debug)
    = String "[" (String "027" "[37mTRACE" ++ String "027" "[0m example.cc:8:17] "
                    ++ message ++ String "010" "").
Proof.
  intros fmt args fn loc message r. repeat split.
Qed.

End TraceGuard.

(** ** The order on levels *)

(** X1.  [operator<] is a strict total order on the five levels, in the
    order of their declaration with Trace least and Error greatest, and
    the built-in [>] of the guards is its converse. *)
Theorem Level_lt_strict_total_order :
  forall a b c : Level.t,
    Level.lt a a = false /\
    (Level.lt a b = true -> Level.lt b c = true -> Level.lt a c = true) /\
    (Level.lt a b = true -> Level.lt b a = false) /\
    (Level.lt a b = true \/ a = b \/ Level.lt b a = true) /\
    Level.gt a b = Level.lt b a /\
    Level.lt a Level.Trace = false /\
    Level.lt Level.Error a = false.
Proof.
  intros a b c.
  split; [apply LevelFacts.lt_irrefl |].
  split; [apply LevelFacts.lt_trans |].
  split; [unfold Level.lt; rewrite Z.ltb_lt, Z.ltb_ge; lia |].
  split; [apply LevelFacts.lt_total |].
  split; [apply LevelFacts.gt_lt |].
  destruct a; repeat split.
Qed.

(** ** One record, one line *)

Lemma count_char_append (c : ascii) (a b : string) :
  count_char c (a ++ b) = count_char c a + count_char c b.
Proof.
  induction a as [| x a IH]; [reflexivity |].
  cbn [append count_char]. rewrite IH. apply Nat.add_assoc.
Qed.

(** A decimal numeral is made of digits. *)
Lemma string_of_uint_no_newline (u : Decimal.uint) :
  count_char newline (NilEmpty.string_of_uint u) = 0.
Proof. induction u; cbn [NilEmpty.string_of_uint count_char]; auto. Qed.

Lemma decimal_no_newline (n : N) : count_char newline (decimal n) = 0.
Proof. apply string_of_uint_no_newline. Qed.

Lemma level_prefix_no_newline (l : Level.t) :
  count_char newline (ANSI_COLOR l ++ LEVEL_NAME l ++ ANSI_RESET) = 0.
Proof. destruct l; reflexivity. Qed.

(** X2.  [default_formatter] adds exactly one newline of its own, the
    last character it writes: the stream gains as many newlines as the
    file name and the message contain, plus one.  A record whose file name
    and message are free of newlines becomes exactly one line. *)
Theorem default_formatter_newlines :
  forall (ofs : ostream) (r : Record_),
    count_char newline (default_formatter ofs r)
    = count_char newline ofs
      + count_char newline (file_name (get_loc r))
      + count_char newline (get_args r) + 1 /\
    exists body : string,
      default_formatter ofs r = ofs ++ body ++ String newline "" /\
      count_char newline body
      = count_char newline (file_name (get_loc r))
        + count_char newline (get_args r).
Proof.
  intros ofs r. rewrite default_formatter_unfold.
  pose proof (level_prefix_no_newline (get_level r)) as Hp.
  rewrite !count_char_append in Hp.
  split.
  - rewrite !count_char_append, !decimal_no_newline.
    cbn [count_char Ascii.eqb Bool.eqb newline]. cbn. lia.
  - exists ("[" ++ ANSI_COLOR (get_level r) ++ LEVEL_NAME (get_level r)
            ++ ANSI_RESET ++ " " ++ file_name (get_loc r) ++ ":"
            ++ decimal (line (get_loc r)) ++ ":"
            ++ decimal (column (get_loc r)) ++ "] " ++ get_args r).
    split.
    + rewrite !append_assoc. reflexivity.
    + rewrite !count_char_append, !decimal_no_newline. cbn. lia.
Qed.

Lemma append_cancel_l (a b c : string) : a ++ b = a ++ c -> b = c.
Proof.
  induction a as [| x a IH]; cbn [append]; intros H; [exact H |].
  injection H as H. now apply IH.
Qed.

(** X3.  The line tells the level: two records that [default_formatter]
    renders to the same bytes have the same level. *)
Theorem default_formatter_determines_level :
  forall (ofs : ostream) (r1 r2 : Record_),
    default_formatter ofs r1 = default_formatter ofs r2 ->
    get_level r1 = get_level r2.
Proof.
  intros ofs r1 r2 H.
  rewrite !default_formatter_unfold in H.
  apply append_cancel_l in H.
  destruct (get_level r1), (get_level r2); try reflexivity;
    cbn in H; discriminate H.
Qed.

Lemma default_formatter_determines_level_witness :
  get_level (Record_new Level.Error "disk full"
               (mk_source_location "io.cc" "flush" 40 9))
  = get_level (Record_new Level.Error "disk full"
                 (mk_source_location "io.cc" "sync" 40 9)).
Proof.
  apply (default_formatter_determines_level "").
  reflexivity.
Defined.

(** The line does not tell more: the file name and the message are not
    delimited, so different records can render alike. *)
Lemma default_formatter_not_injective :
  default_formatter ""
    (Record_new Level.Info "m" (mk_source_location "a:1:2] b" "f" 3 4))
  = default_formatter ""
      (Record_new Level.Info "b:3:4] m" (mk_source_location "a" "f" 1 2)).
Proof. reflexivity. Qed.

(** ** More on Builder::from_env *)

Lemma length_append (a b : string) :
  String.length (a ++ b) = String.length a + String.length b.
Proof. induction a as [| x a IH]; cbn; [reflexivity | now rewrite IH]. Qed.

Lemma transform_append (f : ascii -> ascii) (a b : string) :
  transform f (a ++ b) = transform f a ++ transform f b.
Proof. induction a as [| x a IH]; cbn; [reflexivity | now rewrite IH]. Qed.

Lemma transform_length (f : ascii -> ascii) (s : string) :
  String.length (transform f s) = String.length s.
Proof. induction s as [| x s IH]; cbn; [reflexivity | now rewrite IH]. Qed.

(** The chain of comparisons of [from_env], read as a function of the
    lower-cased value. *)
Lemma from_env_set (getenv : environment) (name : string_view)
  (value : string) :
  getenv (c_str (data name)) = Some value ->
  from_env getenv name
  = let log_level := transform tolower value in
    if log_level =? "trace" then set_level Builder_new Level.Trace
    else if log_level =? "debug" then set_level Builder_new Level.Debug
    else if log_level =? "info" then set_level Builder_new Level.Info
    else if log_level =? "warning" then set_level Builder_new Level.Warning
    else if log_level =? "error" then set_level Builder_new Level.Error
    else Builder_new.
Proof. intros H. unfold from_env. now rewrite H. Qed.

Lemma from_env_unrecognised (getenv : environment) (name : string_view)
  (value : string) :
  getenv (c_str (data name)) = Some value ->
  (forall l, transform tolower value <> level_literal l) ->
  from_env getenv name = Builder_new.
Proof.
  intros Hset Hne. rewrite (from_env_set _ _ _ Hset). cbv zeta.
  pose proof (Hne Level.Trace) as H0. pose proof (Hne Level.Debug) as H1.
  pose proof (Hne Level.Info) as H2. pose proof (Hne Level.Warning) as H3.
  pose proof (Hne Level.Error) as H4.
  apply String.eqb_neq in H0, H1, H2, H3, H4.
  cbn [level_literal] in H0, H1, H2, H3, H4.
  now rewrite H0, H1, H2, H3, H4.
Qed.

(** X4.  A level other than Warning comes out of [from_env] only when the
    variable it reads, the one named by the C string at [name.data()], is
    set and its value is a letter-casing of that level's name. *)
Theorem from_env_level_inversion :
  forall (getenv : environment) (name : string_view) (l : Level.t),
    level (from_env getenv name) = l ->
    l <> Level.Warning ->
    exists value : string,
      getenv (c_str (data name)) = Some value /\
      letter_casing_of (level_literal l) value = true.
Proof.
  intros getenv name l Hl Hw.
  destruct (getenv (c_str (data name))) as [value |] eqn:Hset.
  - exists value. split; [reflexivity |].
    rewrite (from_env_set _ _ _ Hset) in Hl. cbv zeta in Hl.
    apply letter_casing_lowered.
    destruct (String.eqb_spec (transform tolower value) "trace") as [E | _];
      [subst l; exact E |].
    destruct (String.eqb_spec (transform tolower value) "debug") as [E | _];
      [subst l; exact E |].
    destruct (String.eqb_spec (transform tolower value) "info") as [E | _];
      [subst l; exact E |].
    destruct (String.eqb_spec (transform tolower value) "warning") as [E | _];
      [subst l; exact E |].
    destruct (String.eqb_spec (transform tolower value) "error") as [E | _];
      [subst l; exact E |].
    subst l. now elim Hw.
  - unfold from_env in Hl. rewrite Hset in Hl. subst l. now elim Hw.
Qed.

Lemma from_env_level_inversion_witness :
  exists value : string,
    (fun name => if name =? "CPP_LOGX" then Some "TRACE" else None)
      (c_str (data CPP_LOG_in_CPP_LOGX)) = Some value /\
    letter_casing_of (level_literal Level.Trace) value = true.
Proof.
  apply (from_env_level_inversion
           (fun name => if name =? "CPP_LOGX" then Some "TRACE" else None)
           CPP_LOG_in_CPP_LOGX Level.Trace).
  - reflexivity.
  - discriminate.
Defined.

(** No level name begins or ends another one. *)
Lemma level_literal_not_extended (l l' : Level.t) (p : string) :
  p <> "" ->
  level_literal l ++ p <> level_literal l' /\
  p ++ level_literal l <> level_literal l'.
Proof.
  intros Hp. split; intros H.
  - destruct p as [| c p]; [now elim Hp |].
    destruct l, l'; cbn in H; congruence.
  - pose proof (f_equal String.length H) as Hlen.
    rewrite length_append in Hlen.
    destruct p as [| c1 [| c2 [| c3 [| c4 p]]]]; [now elim Hp | | | |];
      destruct l, l'; cbn in H, Hlen; try lia; congruence.
Qed.

(** X5.  [from_env] does not trim or search: when the value of the variable
    it reads is a level name (in any casing) with at least one more
    character before it or after it, the value is not recognised and the
    default builder is returned. *)
Theorem from_env_does_not_trim :
  forall (getenv : environment) (name : string_view) (v pad : string)
         (l : Level.t),
    letter_casing_of (level_literal l) v = true ->
    pad <> "" ->
    getenv (c_str (data name)) = Some (v ++ pad) \/
    getenv (c_str (data name)) = Some (pad ++ v) ->
    from_env getenv name = Builder_new.
Proof.
  intros getenv name v pad l Hv Hpad Hset.
  apply letter_casing_lowered in Hv.
  assert (Hlow : transform tolower pad <> "").
  { intros E. apply Hpad. destruct pad; [reflexivity | discriminate E]. }
  destruct Hset as [Hset | Hset];
    apply (from_env_unrecognised _ _ _ Hset); intros l';
    rewrite transform_append, Hv;
    now apply level_literal_not_extended.
Qed.

Lemma from_env_does_not_trim_witness :
  from_env (fun name => if name =? "CPP_LOG" then Some "Debug " else None)
    (string_view_of "CPP_LOG") = Builder_new.
Proof.
  apply (from_env_does_not_trim
           (fun name => if name =? "CPP_LOG" then Some "Debug " else None)
           (string_view_of "CPP_LOG") "Debug" " " Level.Debug).
  - reflexivity.
  - discriminate.
  - left. reflexivity.
Defined.

Lemma tolower_idempotent (c : ascii) : tolower (tolower c) = tolower c.
Proof.
  rewrite <- (ascii_N_embedding (tolower (tolower c))).
  rewrite <- (ascii_N_embedding (tolower c)) at 2.
  f_equal. rewrite (N_of_ascii_tolower (tolower c)), N_of_ascii_tolower.
  destruct (N.leb_spec 65 (N_of_ascii c)), (N.leb_spec (N_of_ascii c) 90);
    cbn [andb]; try reflexivity;
    match goal with
    | |- context [(65 <=? ?n)%N] => destruct (N.leb_spec 65 n)
    end;
    match goal with
    | |- context [(?n <=? 90)%N] => destruct (N.leb_spec n 90)
    end; cbn [andb]; try reflexivity; lia.
Qed.

Lemma transform_tolower_idempotent (s : string) :
  transform tolower (transform tolower s) = transform tolower s.
Proof.
  induction s as [| c s IH]; cbn [transform]; [reflexivity |].
  now rewrite tolower_idempotent, IH.
Qed.

(** X6.  [from_env] looks at the value through its lower-casing only:
    lower-casing every value of the environment beforehand changes
    nothing, and two environments whose values for the variable it reads
    have the same lower-casing give the same builder. *)
Theorem from_env_ignores_casing :
  forall (getenv : environment) (name : string_view),
    from_env (lowered getenv) name = from_env getenv name /\
    forall (getenv' : environment),
      option_map (transform tolower) (getenv' (c_str (data name)))
      = option_map (transform tolower) (getenv (c_str (data name))) ->
      from_env getenv' name = from_env getenv name.
Proof.
  intros getenv name. split.
  - unfold from_env, lowered.
    destruct (getenv (c_str (data name))) as [value |]; cbn [option_map];
      [| reflexivity].
    now rewrite transform_tolower_idempotent.
  - intros getenv' H. unfold from_env.
    destruct (getenv' (c_str (data name))) as [v' |],
      (getenv (c_str (data name))) as [v |];
      cbn [option_map] in H; try discriminate H; [| reflexivity].
    injection H as H. now rewrite H.
Qed.

(** ** More on the entry points *)

Section Filtering.

Context {Args : Type} (std_format : string -> Args -> string).

(** X7.  No configuration silences [error]: its guard compares the
    configured level with the greatest one, so the call always renders
    the message and calls the formatter. *)
Theorem error_is_never_suppressed :
  forall (fmt : string) (args : Args) (loc : source_location) (w : World),
    error std_format fmt args loc w
    = emission w Level.Error (std_format fmt args) loc /\
    invokes_formatter (error std_format fmt args loc) w = true.
Proof.
  intros fmt args loc w.
  change (error std_format) with (entry_point std_format Level.Error).
  rewrite entry_point_invokes_formatter, entry_point_run.
  cbn [guard_level]. destruct (level (g_builder w)); split; reflexivity.
Qed.

Lemma guard_level_monotone (S S' : Level.t) :
  Level.ge S' S = true -> Level.ge (guard_level S') (guard_level S) = true.
Proof. destruct S, S'; intros H; try reflexivity; discriminate H. Qed.

(** X8.  The filter is monotone both ways: if a call of severity [S]
    reaches the formatter under one configuration, so does a call of any
    severity at least [S] under any configuration whose level is at most
    the first one's. *)
Theorem filter_is_monotone :
  forall (S S' : Level.t) (fmt fmt' : string) (args args' : Args)
         (loc loc' : source_location) (w w' : World),
    Level.ge S' S = true ->
    Level.ge (level (g_builder w)) (level (g_builder w')) = true ->
    invokes_formatter (entry_point std_format S fmt args loc) w = true ->
    invokes_formatter (entry_point std_format S' fmt' args' loc') w' = true.
Proof.
  intros S S' fmt fmt' args args' loc loc' w w' HS HL H.
  rewrite entry_point_invokes_formatter in *.
  apply guard_level_monotone in HS.
  rewrite LevelFacts.gt_lt in *.
  apply negb_true_iff in H. apply negb_true_iff.
  apply LevelFacts.ge_iff in HS, HL.
  unfold Level.lt in *. rewrite Z.ltb_ge in *. lia.
Qed.

(** X9.  Rendering is lazy for all five entry points: a call either
    returns at its guard, leaving the state as it was without calling
    [std::format], or it calls [std::format] once, constructs one record
    carrying its own severity, the rendered message and the call site, and
    calls the formatter once with that record. *)
Theorem entry_point_renders_iff_it_emits :
  forall (S : Level.t) (fmt : string) (args : Args) (loc : source_location)
         (w : World),
    let r := Record_new S (std_format fmt args) loc in
    (invokes_formatter (entry_point std_format S fmt args loc) w = false /\
     entry_point std_format S fmt args loc w = (tt, w, [])) \/
    (invokes_formatter (entry_point std_format S fmt args loc) w = true /\
     events_of (entry_point std_format S fmt args loc) w
     = [EvFormat (std_format fmt args); EvRecord r; EvFormatter r] /\
     cout (world_after (entry_point std_format S fmt args loc) w)
     = formatter (g_builder w) (cout w) r /\
     get_level r = S /\ get_loc r = loc).
Proof.
  intros S fmt args loc w r.
  rewrite entry_point_invokes_formatter.
  unfold events_of, world_after. rewrite entry_point_run.
  destruct (Level.gt _ _); [left | right]; repeat split.
Qed.

End Filtering.

Lemma filter_is_monotone_witness :
  invokes_formatter
    (entry_point (fun (fmt : string) (_ : unit) => fmt) Level.Error
       "failed" tt (mk_source_location "a.cc" "f" 2 3))
    World_at_Debug = true.
Proof.
  apply (filter_is_monotone (fun (fmt : string) (_ : unit) => fmt)
           Level.Warning Level.Error "slow" "failed" tt tt
           (mk_source_location "a.cc" "f" 1 3)
           (mk_source_location "a.cc" "f" 2 3)
           initial_World World_at_Debug).
  - reflexivity.
  - reflexivity.
  - reflexivity.
Defined.

(** ** Client programs *)

Lemma world_after_bind {A B : Type} (m : M A) (k : A -> M B) (w : World) :
  world_after (bind m k) w = world_after (k (value_of m w)) (world_after m w).
Proof.
  unfold world_after, value_of, bind.
  destruct (m w) as [[a w1] e1]. cbn [fst snd].
  destruct (k a w1) as [[b w2] e2]. reflexivity.
Qed.

Lemma from_env_is_default_with_level (getenv : environment)
  (name : string_view) :
  from_env getenv name
  = {| level := level (from_env getenv name); formatter := default_formatter |}.
Proof.
  unfold from_env.
  destruct (getenv (c_str (data name))) as [value |]; [| reflexivity].
  repeat match goal with
         | |- context [if ?b then _ else _] => destruct b
         end; reflexivity.
Qed.

(** In a state whose formatter is [default_formatter], a call appends its
    line or nothing. *)
Lemma run_call_default (c : call) (L : Level.t) (os : ostream) :
  world_after (run_call c)
    {| g_builder := {| level := L; formatter := default_formatter |};
       cout := os |}
  = {| g_builder := {| level := L; formatter := default_formatter |};
       cout := os ++ (if Level.gt L (guard_level (call_severity c)) then ""
                      else line_format (call_severity c) (call_loc c)
                             (call_message c)) |}.
Proof.
  unfold world_after, run_call. rewrite entry_point_run.
  cbn [g_builder level].
  destruct (Level.gt L _); cbn [fst snd emission g_builder cout formatter].
  - f_equal. clear. induction os as [| x os IH]; cbn; [| rewrite <- IH];
      reflexivity.
  - rewrite default_formatter_unfold. reflexivity.
Qed.

(** The state after a program, from any state a program can be in. *)
Lemma run_program_from (p : list statement) (L : Level.t) (os : ostream) :
  world_after (run_program p)
    {| g_builder := {| level := L; formatter := default_formatter |};
       cout := os |}
  = {| g_builder := {| level := final_level L p;
                       formatter := default_formatter |};
       cout := os ++ expected_output L p |}.
Proof.
  revert L os. induction p as [| s p IH]; intros L os.
  - cbn. f_equal. induction os as [| x os IHos]; cbn; [| rewrite <- IHos];
      reflexivity.
  - cbn [run_program]. rewrite world_after_bind.
    destruct s as [| getenv name | c]; cbn [run_statement].
    + unfold world_after at 2. cbn [init fst snd cout Builder_new].
      apply IH.
    + unfold world_after at 2. cbn [init fst snd cout].
      rewrite from_env_is_default_with_level. apply IH.
    + rewrite run_call_default, IH. cbn [final_level expected_output].
      now rewrite append_assoc.
Qed.

(** X10.  Standard output after a client program (any sequence of
    [Builder().init()], [Builder::from_env(name).init()] and entry-point
    calls, run from program start) is the concatenation, in call order, of
    one default-format line for each call whose guard passes under the
    level set by the latest [init] before it (Warning before the first);
    nothing else is written and nothing written is ever removed. *)
Theorem run_program_output :
  forall (p q : list statement),
    cout (world_after (run_program p) initial_World)
    = expected_output Level.Warning p /\
    cout (world_after (run_program (p ++ q)) initial_World)
    = cout (world_after (run_program p) initial_World)
      ++ expected_output (final_level Level.Warning p) q.
Proof.
  assert (Hsplit : forall p q L,
             expected_output L (p ++ q)
             = expected_output L p ++ expected_output (final_level L p) q
             /\ final_level L (p ++ q) = final_level (final_level L p) q).
  { induction p as [| s p IH]; intros q L; [split; reflexivity |].
    destruct s as [| getenv name | c]; cbn [app expected_output final_level];
      try apply IH.
    destruct (IH q L) as [IH1 IH2]. rewrite IH1, append_assoc. now split. }
  intros p q. unfold initial_World, Builder_new.
  rewrite !run_program_from. cbn [cout append].
  split; [reflexivity | apply Hsplit].
Qed.

(** X11.  No client program changes the formatter: after any sequence of
    [init]s of builders made by [Builder()] or [from_env] and of
    entry-point calls, the global formatter is [default_formatter], and the
    global level is the one of the latest [init] (Warning if there was
    none); entry-point calls change neither. *)
Theorem run_program_keeps_default_formatter :
  forall (p : list statement),
    formatter (g_builder (world_after (run_program p) initial_World))
    = default_formatter /\
    level (g_builder (world_after (run_program p) initial_World))
    = final_level Level.Warning p /\
    forall c : call,
      g_builder (world_after (run_program (p ++ [Emit c])) initial_World)
      = g_builder (world_after (run_program p) initial_World).
Proof.
  assert (Hfinal : forall p c L,
             final_level L (p ++ [Emit c]) = final_level L p).
  { induction p as [| s p IH]; intros c L; [reflexivity |].
    destruct s; cbn [app final_level]; apply IH. }
  intros p. unfold initial_World, Builder_new.
  rewrite run_program_from. cbn [g_builder level formatter].
  repeat split. intros c. rewrite run_program_from. cbn [g_builder].
  now rewrite Hfinal.
Qed.

(** ** The example program *)

Section Example.

Context (format_str : string -> string -> string)
        (format_int : string -> Z -> string)
        (loc_info loc_debug : source_location).

Lemma main_world (getenv : environment) :
  world_after (main getenv format_str format_int loc_info loc_debug)
    initial_World
  = world_after
      (run_program
         [Init_from_env getenv (string_view_of "CPP_LOG");
          Emit (mk_call Level.Info string format_str "Hello, {}!" "world"
                  loc_info);
          Emit (mk_call Level.Debug Z format_int "1 + 1 = {}" 2%Z loc_debug)])
      initial_World.
Proof.
  unfold main. cbn [run_program run_statement].
  rewrite !world_after_bind. reflexivity.
Qed.

(** X12.  The example of the README returns 0 and prints, by the value of
    CPP_LOG: nothing when the variable is unset or holds anything but a
    casing of trace, debug or info (so nothing by default); the INFO line
    of its first call when it holds a casing of info; the INFO line
    followed by the DEBUG line of its second call when it holds a casing of
    debug or trace. *)
Theorem main_output :
  forall (getenv : environment),
    let hello :=
      line_format Level.Info loc_info (format_str "Hello, {}!" "world") in
    let sum :=
      line_format Level.Debug loc_debug (format_int "1 + 1 = {}" 2%Z) in
    let run := main getenv format_str format_int loc_info loc_debug in
    value_of run initial_World = 0%Z /\
    cout (world_after run initial_World)
    = match getenv "CPP_LOG" with
      | None => ""
      | Some value =>
          if letter_casing_of "trace" value || letter_casing_of "debug" value
          then hello ++ sum
          else if letter_casing_of "info" value then hello
          else ""
      end.
Proof.
  intros getenv hello sum run. split.
  - unfold run, main, value_of, bind. cbn [init].
    destruct (info _ _ _ _ _) as [[u1 w1] e1].
    destruct (debug _ _ _ _ _) as [[u2 w2] e2]. reflexivity.
  - unfold run. rewrite main_world.
    unfold initial_World, Builder_new. rewrite run_program_from.
    cbn [cout append expected_output call_severity call_loc call_message
         call_format call_fmt call_args guard_level].
    unfold from_env.
    change (c_str (data (string_view_of "CPP_LOG"))) with "CPP_LOG".
    destruct (getenv "CPP_LOG") as [value |]; [| reflexivity].
    cbv zeta.
    rewrite <- !(transform_tolower_eqb _ value) by reflexivity.
    fold hello sum. clearbody hello sum.
    assert (Hnil : forall s : string, s ++ "" = s).
    { induction s as [| x s IH]; cbn; [| rewrite IH]; reflexivity. }
    destruct (transform tolower value =? "trace");
      [cbn; now rewrite Hnil |].
    destruct (transform tolower value =? "debug");
      [cbn; now rewrite Hnil |].
    destruct (transform tolower value =? "info"); [cbn; apply Hnil |].
    destruct (transform tolower value =? "warning"); [reflexivity |].
    destruct (transform tolower value =? "error"); reflexivity.
Qed.

End Example.
